(** * The RAG agent chatbot: retrieval pipeline, HTTP front door and start-up

    A shallow embedding of the four Python scripts of the repository

      - [retrieving.py]         (module [Retrieving]):      the stand-alone retrieval test,
      - [rag_agents.py]         (module [RagAgents]):       the direct agent script,
      - [fastapi_rag_agent.py]  (module [FastapiRagAgent]): the FastAPI wrapped agent,
      - [main.py]               (module [Main]):            the CORS hardened service,

    and the properties their specification states about them.

    The three hosted services (Cohere embeddings, the Qdrant vector store and
    the agent runtime) are external: they are a record of oracles, [services],
    and every property is proved for every such record.  Calls to them and
    lines printed to the standard output are recorded in a trace of events,
    threaded through a state and exception monad [M].  The constructors of
    the client libraries, which the modules call at start-up, are likewise a
    record of oracles, [sdk]. *)

From Stdlib Require Import String Ascii ZArith NArith List PrimFloat DecimalString.
From stdpp Require Import base option list gmap.

Set Warnings "-register-all".
Local Open Scope Z_scope.

(** ** Python data *)

(** A Python [str] is a sequence of Unicode code points. *)
Abbreviation pystr := (list N).

(** A string literal of the source (the literals of the four scripts are ASCII). *)
Definition lit (s : string) : pystr := N_of_ascii <$> list_ascii_of_string s.

(** The double quote, which a literal above cannot hold. *)
Definition dquote : pystr := [34%N].

(** [str(n)] for an integer. *)
Definition str_of_Z (z : Z) : pystr := lit (NilZero.string_of_int (Z.to_int z)).

(** [sep.join(parts)]. *)
Fixpoint join (sep : pystr) (parts : list pystr) : pystr :=
  match parts with
  | [] => []
  | [p] => p
  | p :: ps => p ++ sep ++ join sep ps
  end.

(** The values found in a JSON payload and in an agent's final output. *)
Inductive pyval :=
| PNone
| PBool (b : bool)
| PInt (z : Z)
| PStr (s : pystr)
| PList (l : list pyval).

(** Python's truth value of an object ([bool(x)], as used by [not], [or], [if]). *)
Definition truthy (v : pyval) : bool :=
  match v with
  | PNone => false
  | PBool b => b
  | PInt z => negb (z =? 0)
  | PStr s => negb (bool_decide (s = []))
  | PList l => match l with [] => false | _ => true end
  end.

(** Truth value of a list object (empty lists are false). *)
Definition truthy_list {A} (l : list A) : bool :=
  match l with [] => false | _ => true end.

(** Truth value of an optional string, as [os.getenv] returns it. *)
Definition truthy_opt_str (o : option pystr) : bool :=
  match o with
  | None => false
  | Some s => truthy_list s
  end.

(** [x or y]. *)
Definition py_or (x y : pyval) : pyval := if truthy x then x else y.

(** [all(xs)] on already computed truth values. *)
Definition py_all (xs : list bool) : bool := forallb id xs.

(** *** Whitespace and [str.strip]

    The code points for which [str.isspace] holds: they are what [strip()]
    without an argument removes. *)
Definition py_isspace (c : N) : bool :=
  ((9 <=? c) && (c <=? 13) || (28 <=? c) && (c <=? 32)
   || (c =? 133) || (c =? 160) || (c =? 5760)
   || (8192 <=? c) && (c <=? 8202)
   || (c =? 8232) || (c =? 8233) || (c =? 8239) || (c =? 8287)
   || (c =? 12288))%N.

Fixpoint lstrip (s : pystr) : pystr :=
  match s with
  | [] => []
  | c :: s' => if py_isspace c then lstrip s' else s
  end.

Definition rstrip (s : pystr) : pystr := rev (lstrip (rev s)).

Definition strip (s : pystr) : pystr := rstrip (lstrip s).

(** ** Exceptions

    The instances of [Exception] the scripts meet: an ordinary exception with
    its class name and its [str(e)], and FastAPI's [HTTPException]. *)
Inductive exn :=
| PyException (cls : pystr) (message : pystr)
| HTTPException (status_code : Z) (detail : pystr).

(** [str(e)]. *)
Definition str_exn (e : exn) : pystr :=
  match e with
  | PyException _ message => message
  | HTTPException status_code detail => str_of_Z status_code ++ lit ": " ++ detail
  end.

Definition IndexError : exn :=
  PyException (lit "IndexError") (lit "list index out of range").

Definition KeyError (key : pystr) : exn :=
  PyException (lit "KeyError") (lit "'" ++ key ++ lit "'").

(** ** The boundary with the hosted services *)

(** An embedding vector. *)
Abbreviation vector := (list float).

(** A point of a Qdrant query response. *)
Record ScoredPoint := {
  payload : gmap pystr pyval;
  score : float;
}.

(** What leaves the process: requests to the services and printed lines. *)
Inductive event :=
| EvEmbed (model input_type : pystr) (texts : list pystr)
| EvQueryPoints (collection_name : pystr) (query : vector) (limit : Z)
| EvRunSync (agent_name input : pystr)
| EvPrint (line : pystr).

Definition is_embed (ev : event) : bool :=
  match ev with EvEmbed _ _ _ => true | _ => false end.

Definition is_query_points (ev : event) : bool :=
  match ev with EvQueryPoints _ _ _ => true | _ => false end.

Definition is_run_sync (ev : event) : bool :=
  match ev with EvRunSync _ _ => true | _ => false end.

(** ** The monad of the scripts: a trace of events and exceptions *)

Definition M (A : Type) : Type := list event → (exn + A) * list event.

Definition ret {A} (a : A) : M A := λ tr, (inr a, tr).

Definition bind {A B} (m : M A) (k : A → M B) : M B :=
  λ tr, match m tr with
        | (inr a, tr') => k a tr'
        | (inl e, tr') => (inl e, tr')
        end.

Definition raise {A} (e : exn) : M A := λ tr, (inl e, tr).

(** [try: body  except Exception as e: handler e]. *)
Definition try_except {A} (body : M A) (handler : exn → M A) : M A :=
  λ tr, match body tr with
        | (inr a, tr') => (inr a, tr')
        | (inl e, tr') => handler e tr'
        end.

Definition emit (ev : event) : M unit := λ tr, (inr tt, tr ++ [ev]).

(** The monad's operations under stdpp's notations [x ← m; k] and [m ;; k]. *)
#[global] Instance M_ret : MRet M := @ret.
#[global] Instance M_bind : MBind M := λ A B k m, bind m k.

(** [print(prefix, e)]: the two arguments separated by a space. *)
Definition print2 (prefix : pystr) (e : exn) : M unit :=
  emit (EvPrint (prefix ++ lit " " ++ str_exn e)).

(** [xs[0]]. *)
Definition index0 {A} (xs : list A) : M A :=
  match xs with
  | [] => raise IndexError
  | x :: _ => ret x
  end.

(** [d[key]]. *)
Definition getitem (d : gmap pystr pyval) (key : pystr) : M pyval :=
  match d !! key with
  | Some v => ret v
  | None => raise (KeyError key)
  end.

(** [d.get(key, dflt)]. *)
Definition dict_get (d : gmap pystr pyval) (key : pystr) (dflt : pyval) : pyval :=
  default dflt (d !! key).

(** A list comprehension whose element expression may raise. *)
Fixpoint comprehension {A B} (f : A → M B) (xs : list A) : M (list B) :=
  match xs with
  | [] => ret []
  | x :: xs' => y ← f x; ys ← comprehension f xs'; ret (y :: ys)
  end.

(** *** The agent runtime's objects *)

Record FunctionTool := {
  tool_name : pystr;
  on_invoke : pystr → M (list pyval);
}.

Record OpenAIChatCompletionsModel := {
  model_name : pystr;
  base_url : pystr;
}.

Record Agent := {
  name : pystr;
  instructions : pystr;
  model : OpenAIChatCompletionsModel;
  tools : list FunctionTool;
}.

Record RunResult := { final_output : pyval }.

(** *** The services

    Each oracle sees the trace so far, so that an answer may depend on the
    whole history of the process; the agent runtime is itself a computation,
    free to invoke the tools of the agent it is given. *)
Record services := {
  cohere_embed : list event → pystr → pystr → list pystr → exn + list vector;
  qdrant_query_points : list event → pystr → vector → Z → exn + list ScoredPoint;
  agents_run : Agent → pystr → M RunResult;
}.

(** [cohere_client.embed(model=..., input_type=..., texts=...).embeddings] *)
Definition embed (sv : services) (model input_type : pystr) (texts : list pystr)
  : M (list vector) :=
  λ tr, (cohere_embed sv tr model input_type texts,
         tr ++ [EvEmbed model input_type texts]).

(** [qdrant_client.query_points(collection_name=..., query=..., limit=...).points] *)
Definition query_points (sv : services) (collection_name : pystr) (query : vector)
    (limit : Z) : M (list ScoredPoint) :=
  λ tr, (qdrant_query_points sv tr collection_name query limit,
         tr ++ [EvQueryPoints collection_name query limit]).

(** [Runner.run_sync(agent, input=...)] *)
Definition Runner_run_sync (sv : services) (agent : Agent) (input : pystr)
  : M RunResult :=
  emit (EvRunSync (name agent) input);; agents_run sv agent input.

(** The model and the instructions shared by the three agent scripts. *)
Definition gemini_model : OpenAIChatCompletionsModel :=
  {| model_name := lit "gemini-2.5-flash";
     base_url := lit "https://generativelanguage.googleapis.com/v1beta/openai/" |}.

Definition newline : pystr := [10%N].

Definition tutor_instructions : pystr :=
  newline
  ++ lit "You are an AI tutor for the Physical AI & Humanoid Robotics textbook." ++ newline
  ++ newline
  ++ lit "Rules:" ++ newline
  ++ lit "1. First call the tool `retrieve` with the user question." ++ newline
  ++ lit "2. Use ONLY the returned content from `retrieve` to answer." ++ newline
  ++ lit "3. If the answer is not present, reply exactly: "
  ++ dquote ++ lit "I don't know" ++ dquote ++ lit "." ++ newline.

(** ** [retrieving.py] *)
Module Retrieving.

Definition get_embedding (sv : services) (text : pystr) : M vector :=
  response ← embed sv (lit "embed-english-v3.0") (lit "search_query") [text];
  index0 response.

Definition retrieve (sv : services) (query : pystr) : M (list pyval) :=
  embedding ← get_embedding sv query;
  result ← query_points sv (lit "humanoid_ai_book") embedding 5;
  comprehension (λ point, getitem (payload point) (lit "text")) result.

End Retrieving.

(** ** The HTTP layer (FastAPI)

    A handler that returns a dictionary answers with status 200 and that
    dictionary as JSON; a raised [HTTPException] answers with its status and
    [{"detail": detail}]; any other exception escaping a handler is the
    framework's plain 500. *)
Record QueryRequest := { query : pystr }.

Inductive http_body :=
| JSON (d : gmap pystr pyval)
| PlainText (s : pystr).

Record http_response := {
  status : Z;
  body : http_body;
}.

Definition fastapi_response (r : exn + gmap pystr pyval) : http_response :=
  match r with
  | inr d => {| status := 200; body := JSON d |}
  | inl (HTTPException status_code detail) =>
      {| status := status_code; body := JSON {[ lit "detail" := PStr detail ]} |}
  | inl (PyException _ _) =>
      {| status := 500; body := PlainText (lit "Internal Server Error") |}
  end.

Definition endpoint (handler : M (gmap pystr pyval))
  : list event → http_response * list event :=
  λ tr, let '(r, tr') := handler tr in (fastapi_response r, tr').

(** The two routes the services declare. *)
Inductive route :=
| POST_ask (req : QueryRequest)
| GET_root.


(** ** Start-up: the environment

    [environ] is the process environment as [os.getenv] reads it, that is
    once [load_dotenv()] has returned. *)
Definition os_getenv (environ : gmap pystr pystr) (key : pystr) : option pystr :=
  environ !! key.

(** The module level names bound when the start-up check has passed. *)
Record Globals := {
  GEMINI_API_KEY : option pystr;
  COHERE_API_KEY : option pystr;
  QDRANT_URL : option pystr;
  QDRANT_API_KEY : option pystr;
}.

Definition read_environment (environ : gmap pystr pystr) : Globals :=
  {| GEMINI_API_KEY := os_getenv environ (lit "GEMINI_API_KEY");
     COHERE_API_KEY := os_getenv environ (lit "COHERE_API_KEY");
     QDRANT_URL := os_getenv environ (lit "QDRANT_URL");
     QDRANT_API_KEY := os_getenv environ (lit "QDRANT_API_KEY") |}.

(** A module that has been executed to its end: its global names and, for the
    two web services, the application object that serves requests. *)
Record module_namespace := {
  globals : Globals;
  application : option (services → route → list event → http_response * list event);
}.

(** The constructors of the client libraries that the modules call with
    values read from the environment.  They belong to the libraries, not to
    the scripts: each is an oracle that gives the exception the call raises,
    if any (a vector-store client, say, refuses a URL whose scheme it does
    not know). *)
Record sdk := {
  AsyncOpenAI : option pystr → pystr → option exn;
  cohere_Client : option pystr → option exn;
  QdrantClient : option pystr → option pystr → option exn;
}.

(** A module-level statement that may raise, followed by the rest of the
    module. *)
Definition after {A} (statement : option exn) (rest : exn + A) : exn + A :=
  match statement with
  | Some e => inl e
  | None => rest
  end.

(** ** [rag_agents.py] *)
Module RagAgents.

Definition module_init (environ : gmap pystr pystr) : exn + Globals :=
  let g := read_environment environ in
  if negb (py_all [truthy_opt_str (GEMINI_API_KEY g); truthy_opt_str (COHERE_API_KEY g);
                   truthy_opt_str (QDRANT_URL g); truthy_opt_str (QDRANT_API_KEY g)])
  then inl (PyException (lit "ValueError") (lit "Missing required environment variables"))
  else inr g.

Definition get_embedding (sv : services) (text : pystr) : M vector :=
  response ← embed sv (lit "embed-english-v3.0") (lit "search_query") [text];
  index0 response.

Definition retrieve (sv : services) (query : pystr) : M (list pyval) :=
  embedding ← get_embedding sv query;
  result ← query_points sv (lit "humanoid_ai_book") embedding 5;
  comprehension (λ point, getitem (payload point) (lit "text")) result.

Definition agent (sv : services) : Agent :=
  {| name := lit "Physical AI Tutor";
     instructions := tutor_instructions;
     model := gemini_model;
     tools := [ {| tool_name := lit "retrieve"; on_invoke := retrieve sv |} ] |}.

(** Executing the module (imported, not run as a script): the check of the
    environment, then the three clients in the order of the source
    ([provider], [cohere_client], [qdrant_client]); no application. *)
Definition load (lib : sdk) (environ : gmap pystr pystr) : exn + module_namespace :=
  match module_init environ with
  | inl e => inl e
  | inr g =>
      after (AsyncOpenAI lib (GEMINI_API_KEY g) (base_url gemini_model))
        (after (cohere_Client lib (COHERE_API_KEY g))
           (after (QdrantClient lib (QDRANT_URL g) (QDRANT_API_KEY g))
              (inr {| globals := g; application := None |})))
  end.

End RagAgents.

(** ** [fastapi_rag_agent.py] *)
Module FastapiRagAgent.

Definition module_init (environ : gmap pystr pystr) : exn + Globals :=
  let g := read_environment environ in
  if negb (py_all [truthy_opt_str (GEMINI_API_KEY g); truthy_opt_str (COHERE_API_KEY g);
                   truthy_opt_str (QDRANT_URL g); truthy_opt_str (QDRANT_API_KEY g)])
  then inl (PyException (lit "ValueError") (lit "Missing required environment variables"))
  else inr g.

Definition get_embedding (sv : services) (text : pystr) : M vector :=
  response ← embed sv (lit "embed-english-v3.0") (lit "search_query") [text];
  index0 response.

Definition retrieve (sv : services) (query : pystr) : M (list pyval) :=
  embedding ← get_embedding sv query;
  result ← query_points sv (lit "humanoid_ai_book") embedding 5;
  comprehension (λ point, getitem (payload point) (lit "text")) result.

Definition agent (sv : services) : Agent :=
  {| name := lit "Physical AI Tutor";
     instructions := tutor_instructions;
     model := gemini_model;
     tools := [ {| tool_name := lit "retrieve"; on_invoke := retrieve sv |} ] |}.

Definition ask_agent (sv : services) (req : QueryRequest) : M (gmap pystr pyval) :=
  try_except
    (result ← Runner_run_sync sv (agent sv) (query req);
     mret {[ lit "answer" := final_output result ]})
    (λ e, raise (HTTPException 500 (str_exn e))).

Definition root : M (gmap pystr pyval) :=
  mret {[ lit "message" := PStr (lit "Humanoid AI RAG Agent is running") ]}.

(** [app]: [POST /ask] and [GET /]. *)
Definition app (sv : services) (r : route) : list event → http_response * list event :=
  match r with
  | POST_ask req => endpoint (ask_agent sv req)
  | GET_root => endpoint root
  end.

(** Executing the module: the check of the environment comes first, then
    the three clients in the order of the source ([provider],
    [cohere_client], [qdrant_client]), then the agent and the application,
    which are built from constants of the source. *)
Definition load (lib : sdk) (environ : gmap pystr pystr) : exn + module_namespace :=
  match module_init environ with
  | inl e => inl e
  | inr g =>
      after (AsyncOpenAI lib (GEMINI_API_KEY g) (base_url gemini_model))
        (after (cohere_Client lib (COHERE_API_KEY g))
           (after (QdrantClient lib (QDRANT_URL g) (QDRANT_API_KEY g))
              (inr {| globals := g; application := Some app |})))
  end.

End FastapiRagAgent.

(** ** [main.py] *)
Module Main.

Definition module_init (environ : gmap pystr pystr) : exn + Globals :=
  let g := read_environment environ in
  let missing_vars :=
    fold_left
      (λ missing_vars '(key, value),
         if negb (truthy_opt_str value) then missing_vars ++ [key] else missing_vars)
      [ (lit "GEMINI_API_KEY", GEMINI_API_KEY g);
        (lit "COHERE_API_KEY", COHERE_API_KEY g);
        (lit "QDRANT_URL", QDRANT_URL g);
        (lit "QDRANT_API_KEY", QDRANT_API_KEY g) ]
      [] in
  if truthy_list missing_vars
  then inl (PyException (lit "RuntimeError")
              (lit "Missing required environment variables: "
               ++ join (lit ", ") missing_vars))
  else inr g.

Definition get_embedding (sv : services) (text : pystr) : M vector :=
  try_except
    (response ← embed sv (lit "embed-english-v3.0") (lit "search_query") [text];
     index0 response)
    (λ e, print2 (lit "Cohere embedding error:") e;; mret []).

Definition retrieve (sv : services) (query : pystr) : M (list pyval) :=
  try_except
    (embedding ← get_embedding sv query;
     if negb (truthy_list embedding) then mret []
     else
       result ← query_points sv (lit "humanoid_ai_book") embedding 5;
       mret ((λ point, dict_get (payload point) (lit "text") (PStr (lit ""))) <$> result))
    (λ e, print2 (lit "Qdrant retrieve error:") e;; mret []).

Definition agent (sv : services) : Agent :=
  {| name := lit "Physical AI Tutor";
     instructions := tutor_instructions;
     model := gemini_model;
     tools := [ {| tool_name := lit "retrieve"; on_invoke := retrieve sv |} ] |}.

Definition origins : list pystr :=
  [ lit "http://127.0.0.1:5500";
    lit "http://localhost:3000";
    lit "https://hackathon-eight-beige.vercel.app" ].

Definition ask_agent (sv : services) (req : QueryRequest) : M (gmap pystr pyval) :=
  try_except
    (if negb (truthy_list (strip (query req)))
     then mret {[ lit "answer" := PStr (lit "Query is empty.") ]}
     else
       result ← Runner_run_sync sv (agent sv) (query req);
       mret {[ lit "answer" := py_or (final_output result) (PStr (lit "I don't know")) ]})
    (λ e, print2 (lit "Agent error:") e;;
          raise (HTTPException 500 (lit "Internal server error. Check backend logs."))).

Definition root : M (gmap pystr pyval) :=
  mret {[ lit "message" := PStr (lit "Humanoid AI RAG Agent is running") ]}.

(** [app]: [POST /ask] and [GET /]. *)
Definition app (sv : services) (r : route) : list event → http_response * list event :=
  match r with
  | POST_ask req => endpoint (ask_agent sv req)
  | GET_root => endpoint root
  end.

(** Executing the module: the check of the environment comes first, then
    the three clients in the order of the source ([provider],
    [cohere_client], [qdrant_client]), then the agent and the application,
    which are built from constants of the source. *)
Definition load (lib : sdk) (environ : gmap pystr pystr) : exn + module_namespace :=
  match module_init environ with
  | inl e => inl e
  | inr g =>
      after (AsyncOpenAI lib (GEMINI_API_KEY g) (base_url gemini_model))
        (after (cohere_Client lib (COHERE_API_KEY g))
           (after (QdrantClient lib (QDRANT_URL g) (QDRANT_API_KEY g))
              (inr {| globals := g; application := Some app |})))
  end.

End Main.

(** * Vocabulary of the properties *)

Arguments lit : simpl never.

(** ** Requests the retrieval pipeline sends, and the services' answers to them *)

Definition embed_request (text : pystr) : event :=
  EvEmbed (lit "embed-english-v3.0") (lit "search_query") [text].

Definition search_request (v : vector) : event :=
  EvQueryPoints (lit "humanoid_ai_book") v 5.

(** The embedding service's answer to [embed_request text] after trace [tr]. *)
Definition embed_answer (sv : services) (tr : list event) (text : pystr)
  : exn + list vector :=
  cohere_embed sv tr (lit "embed-english-v3.0") (lit "search_query") [text].

(** The vector store's answer to [search_request v], sent after the embedding
    request for [text]. *)
Definition search_answer (sv : services) (tr : list event) (text : pystr) (v : vector)
  : exn + list ScoredPoint :=
  qdrant_query_points sv (tr ++ [embed_request text]) (lit "humanoid_ai_book") v 5.

(** The exception, if any, with which one of the two steps of a retrieval for
    [text] fails: the embedding service or the vector store raises, or the
    embedding service answers with no vector to take. *)
Definition retrieval_failure (sv : services) (tr : list event) (text : pystr)
  : option exn :=
  match embed_answer sv tr text with
  | inl e => Some e
  | inr [] => Some IndexError
  | inr (v :: _) =>
      match search_answer sv tr text v with
      | inl e => Some e
      | inr _ => None
      end
  end.

(** The embedding and the points, when both services answer. *)
Definition retrieval_answers (sv : services) (tr : list event) (text : pystr)
  : option (vector * list ScoredPoint) :=
  match embed_answer sv tr text with
  | inr (v :: _) =>
      match search_answer sv tr text v with
      | inr points => Some (v, points)
      | inl _ => None
      end
  | _ => None
  end.

(** The vector store returns no more points than the limit it is given. *)
Definition honours_limit (sv : services) : Prop :=
  ∀ tr collection_name v limit points,
    0 ≤ limit →
    qdrant_query_points sv tr collection_name v limit = inr points →
    Z.of_nat (length points) ≤ limit.

(** The line [print(prefix, e)] writes. *)
Definition printed (prefix : pystr) (e : exn) : event :=
  EvPrint (prefix ++ lit " " ++ str_exn e).

(** What [[point.payload["text"] for point in points]] evaluates to. *)
Fixpoint texts_of (points : list ScoredPoint) : exn + list pyval :=
  match points with
  | [] => inr []
  | point :: points' =>
      match payload point !! lit "text" with
      | None => inl (KeyError (lit "text"))
      | Some t =>
          match texts_of points' with
          | inl e => inl e
          | inr ts => inr (t :: ts)
          end
      end
  end.

(** What [point.payload.get("text", "")] evaluates to. *)
Definition text_or_empty (point : ScoredPoint) : pyval :=
  match payload point !! lit "text" with
  | Some t => t
  | None => PStr []
  end.

(** The requests to the vector store among [evs] all name the collection
    ['humanoid_ai_book'] and the limit 5. *)
Definition searches_book_top5 (evs : list event) : Prop :=
  ∀ collection_name v limit,
    EvQueryPoints collection_name v limit ∈ evs →
    collection_name = lit "humanoid_ai_book" ∧ limit = 5.

(** What the agent runtime does with the agent and the query of a request,
    after its invocation has been recorded. *)
Definition agent_outcome (sv : services) (agent : Agent) (req : QueryRequest)
    (tr : list event) : (exn + RunResult) * list event :=
  agents_run sv agent (query req) (tr ++ [EvRunSync (name agent) (query req)]).

Definition ok (d : gmap pystr pyval) : http_response :=
  {| status := 200; body := JSON d |}.

Definition error_500 (detail : pystr) : http_response :=
  {| status := 500; body := JSON {[ lit "detail" := PStr detail ]} |}.

(** The four names the services read from the environment. *)
Definition required_variables : list pystr :=
  [ lit "GEMINI_API_KEY"; lit "COHERE_API_KEY"; lit "QDRANT_URL"; lit "QDRANT_API_KEY" ].

(** The variable is set to a string that is not empty. *)
Definition configured (environ : gmap pystr pystr) (key : pystr) : bool :=
  truthy_opt_str (os_getenv environ key).

(** The agent runtime only ever adds events to the trace it is given. *)
Definition runtime_extends_trace (sv : services) : Prop :=
  ∀ agent input tr, ∃ evs, snd (agents_run sv agent input tr) = tr ++ evs.

(** The variable is absent from the environment, or set to the empty string. *)
Definition absent_or_empty (environ : gmap pystr pystr) (key : pystr) : Prop :=
  environ !! key = None ∨ environ !! key = Some [].



(** ** Sample services and requests, on which the statements are exercised *)

Definition sample_vector : vector := [0.5%float; 0.25%float; (-1)%float].

Definition chunk (text : option pystr) (s : float) : ScoredPoint :=
  {| payload := match text with
                | Some t => {[ lit "text" := PStr t ]}
                | None => {[ lit "page" := PInt 7 ]}
                end;
     score := s |}.

(** A collection of seven chunks, one of them stored without its text. *)
Definition sample_collection : list ScoredPoint :=
  [ chunk (Some (lit "Module 1: ROS 2 fundamentals")) 0.875%float;
    chunk (Some (lit "Module 2: simulation with Gazebo")) 0.75%float;
    chunk None 0.625%float;
    chunk (Some (lit "Module 3: NVIDIA Isaac")) 0.5%float;
    chunk (Some (lit "Module 4: vision language action")) 0.375%float;
    chunk (Some (lit "Appendix: hardware")) 0.25%float;
    chunk (Some (lit "Glossary")) 0.125%float ].

(** A runtime that calls the first tool of the agent once and answers with
    what the tool returned. *)
Definition tool_calling_run (agent : Agent) (input : pystr) : M RunResult :=
  match tools agent with
  | [] => mret {| final_output := PStr (lit "I don't know") |}
  | tool :: _ => context ← on_invoke tool input; mret {| final_output := PList context |}
  end.

(** Services in good health. *)
Definition healthy : services :=
  {| cohere_embed := λ _ _ _ texts, inr ((λ _, sample_vector) <$> texts);
     qdrant_query_points := λ _ _ _ limit, inr (take (Z.to_nat limit) sample_collection);
     agents_run := tool_calling_run |}.

Definition connection_error : exn :=
  PyException (lit "ConnectionError") (lit "upstream unreachable at 10.0.0.7:6333").

(** Every service is down. *)
Definition down : services :=
  {| cohere_embed := λ _ _ _ _, inl connection_error;
     qdrant_query_points := λ _ _ _ _, inl connection_error;
     agents_run := λ _ _, raise connection_error |}.

(** The embedding service answers, the vector store is down. *)
Definition store_down : services :=
  {| cohere_embed := cohere_embed healthy;
     qdrant_query_points := qdrant_query_points down;
     agents_run := tool_calling_run |}.

(** The embedding service answers with an empty vector. *)
Definition empty_embedding : services :=
  {| cohere_embed := λ _ _ _ texts, inr ((λ _, []) <$> texts);
     qdrant_query_points := qdrant_query_points healthy;
     agents_run := tool_calling_run |}.

(** A runtime whose model produces this final output, whatever the input. *)
Definition answering (output : pyval) : services :=
  {| cohere_embed := cohere_embed healthy;
     qdrant_query_points := qdrant_query_points healthy;
     agents_run := λ _ _, mret {| final_output := output |} |}.

Definition question : pystr := lit "What data do you have?".

Definition question_request : QueryRequest := {| query := question |}.

Definition blank_request : QueryRequest := {| query := lit "   " ++ [9; 160; 8195]%N |}.

Definition full_environment : gmap pystr pystr :=
  {[ lit "GEMINI_API_KEY" := lit "g-key";
     lit "COHERE_API_KEY" := lit "c-key";
     lit "QDRANT_URL" := lit "https://qdrant.example:6333";
     lit "QDRANT_API_KEY" := lit "q-key";
     lit "HOME" := lit "/root" ]}.

(** The vector store's URL is set but empty, its key is absent. *)
Definition partial_environment : gmap pystr pystr :=
  {[ lit "GEMINI_API_KEY" := lit "g-key";
     lit "COHERE_API_KEY" := lit "c-key";
     lit "QDRANT_URL" := lit "" ]}.

(** A query with whitespace around it. *)
Definition padded_request : QueryRequest := {| query := lit "  What is ROS 2?  " |}.

(** The embedding service answers with an empty list of vectors. *)
Definition no_vectors : services :=
  {| cohere_embed := λ _ _ _ _, inr [];
     qdrant_query_points := qdrant_query_points healthy;
     agents_run := tool_calling_run |}.

(** The vector store holds two chunks, both with their text. *)
Definition two_chunks : services :=
  {| cohere_embed := cohere_embed healthy;
     qdrant_query_points := λ _ _ _ _, inr (take 2 sample_collection);
     agents_run := tool_calling_run |}.

(** The four required variables and nothing else. *)
Definition bare_environment : gmap pystr pystr :=
  {[ lit "GEMINI_API_KEY" := lit "g-key";
     lit "COHERE_API_KEY" := lit "c-key";
     lit "QDRANT_URL" := lit "https://qdrant.example:6333";
     lit "QDRANT_API_KEY" := lit "q-key" ]}.

(** A vector store that ignores the limit and returns its whole collection. *)
Definition overfull : services :=
  {| cohere_embed := cohere_embed healthy;
     qdrant_query_points := λ _ _ _ _, inr sample_collection;
     agents_run := tool_calling_run |}.

(** The part of a URL before its first colon. *)
Fixpoint url_scheme (url : pystr) : pystr :=
  match url with
  | [] => []
  | c :: url' => if (c =? 58)%N then [] else c :: url_scheme url'
  end.

(** Client libraries whose vector-store client refuses a URL that is neither
    http nor https. *)
Definition checking_scheme : sdk :=
  {| AsyncOpenAI := λ _ _, None;
     cohere_Client := λ _, None;
     QdrantClient := λ url _,
       match url with
       | None => None
       | Some u =>
           if bool_decide (url_scheme u = lit "http")
              || bool_decide (url_scheme u = lit "https")
           then None
           else Some (PyException (lit "ValueError")
                        (lit "Unknown scheme: " ++ url_scheme u))
       end |}.

(** The four variables are set, the vector store's URL to an ftp address. *)
Definition ftp_environment : gmap pystr pystr :=
  {[ lit "GEMINI_API_KEY" := lit "g-key";
     lit "COHERE_API_KEY" := lit "c-key";
     lit "QDRANT_URL" := lit "ftp://host";
     lit "QDRANT_API_KEY" := lit "q-key" ]}.

(** ** Proof automation *)

Ltac unfold_monad :=
  unfold print2, index0, embed, query_points, Runner_run_sync in *;
  unfold mbind, M_bind, mret, M_ret, bind, ret, raise, try_except, emit in *;
  cbn beta iota in *.

Ltac solve_events :=
  repeat match goal with
    | H : _ ∈ [] |- _ => by apply elem_of_nil in H
    | H : _ ∈ _ :: _ |- _ => apply elem_of_cons in H as [H|H]
    | H : @eq event _ _ |- _ => first [discriminate H | injection H as -> -> ->]
    end; try done.

Ltac event_cases :=
  repeat match goal with
    | H : _ ∈ [] |- _ => by apply elem_of_nil in H
    | H : _ ∈ _ :: _ |- _ => apply elem_of_cons in H as [H|H]
    end; simplify_eq.

(** * Properties *)

(** ** Whitespace *)

Lemma lstrip_nil_iff (s : pystr) : lstrip s = [] ↔ forallb py_isspace s = true.
Proof.
  induction s as [|c s IH]; simpl; [done|].
  destruct (py_isspace c); simpl; [exact IH|].
  split; discriminate.
Qed.

Lemma forallb_rev {A} (f : A → bool) (l : list A) : forallb f (rev l) = forallb f l.
Proof.
  induction l as [|x l IH]; simpl; [done|].
  rewrite forallb_app, IH. simpl. rewrite andb_true_r. apply andb_comm.
Qed.

Lemma lstrip_head (s : pystr) :
  match lstrip s with [] => True | c :: _ => py_isspace c = false end.
Proof.
  induction s as [|c s IH]; simpl; [done|].
  destruct (py_isspace c) eqn:Hc; simpl; done.
Qed.

(** [s.strip()] is empty exactly when [s] holds nothing but whitespace. *)
Lemma strip_nil_iff (s : pystr) : strip s = [] ↔ forallb py_isspace s = true.
Proof.
  unfold strip, rstrip. split.
  - intros H. apply (f_equal (@rev N)) in H. rewrite rev_involutive in H. simpl in H.
    apply lstrip_nil_iff in H. rewrite forallb_rev in H.
    apply lstrip_nil_iff. pose proof (lstrip_head s) as Hh.
    destruct (lstrip s) as [|c s']; [done|].
    simpl in H. rewrite Hh in H. discriminate.
  - intros H. apply lstrip_nil_iff in H. rewrite H. reflexivity.
Qed.

Example strip_inner_space :
  strip (lit "  give a all modules " ++ [12288%N]) = lit "give a all modules".
Proof. vm_compute. reflexivity. Qed.

Example str_http_exception :
  str_exn (HTTPException 500 (lit "Internal server error. Check backend logs."))
  = lit "500: Internal server error. Check backend logs.".
Proof. vm_compute. reflexivity. Qed.

Lemma blank_not_truthy (s : pystr) :
  forallb py_isspace s = true → negb (truthy_list (strip s)) = true.
Proof. intros H. apply strip_nil_iff in H. by rewrite H. Qed.

Lemma not_blank_truthy (s : pystr) :
  forallb py_isspace s = false → negb (truthy_list (strip s)) = false.
Proof.
  intros H. destruct (strip s) eqn:Hs; [|done].
  apply strip_nil_iff in Hs. congruence.
Qed.

(** ** Running the retrieval pipeline *)

Lemma comprehension_getitem (points : list ScoredPoint) (tr : list event) :
  comprehension (λ point, getitem (payload point) (lit "text")) points tr
  = (texts_of points, tr).
Proof.
  induction points as [|p ps IH]; simpl; [done|].
  unfold_monad. unfold getitem at 1.
  destruct (payload p !! lit "text") as [t|]; unfold_monad; [|done].
  rewrite IH. by destruct (texts_of ps).
Qed.

Lemma dict_get_text (point : ScoredPoint) :
  dict_get (payload point) (lit "text") (PStr (lit "")) = text_or_empty point.
Proof. unfold dict_get, text_or_empty. by destruct (payload point !! lit "text"). Qed.

(** The retrieval of the three scripts without exception handling. *)
Lemma plain_get_embedding_run (sv : services) (text : pystr) (tr : list event) :
  Retrieving.get_embedding sv text tr
  = (match embed_answer sv tr text with
     | inl e => inl e
     | inr [] => inl IndexError
     | inr (v :: _) => inr v
     end, tr ++ [embed_request text]).
Proof.
  unfold Retrieving.get_embedding, embed_answer, embed_request. unfold_monad.
  by destruct (cohere_embed sv tr _ _ _) as [e|[|v vs]].
Qed.

Lemma plain_retrieve_run (sv : services) (q : pystr) (tr : list event) :
  Retrieving.retrieve sv q tr
  = match embed_answer sv tr q with
    | inl e => (inl e, tr ++ [embed_request q])
    | inr [] => (inl IndexError, tr ++ [embed_request q])
    | inr (v :: _) =>
        (match search_answer sv tr q v with
         | inl e => inl e
         | inr points => texts_of points
         end, tr ++ [embed_request q; search_request v])
    end.
Proof.
  unfold Retrieving.retrieve. unfold mbind at 1, M_bind, bind.
  rewrite plain_get_embedding_run.
  destruct (embed_answer sv tr q) as [e|[|v vs]]; try done.
  unfold mbind, M_bind, bind, query_points, search_answer, search_request.
  rewrite <- (assoc_L (++)). simpl.
  destruct (qdrant_query_points sv _ _ _ _) as [e|points]; [done|].
  apply comprehension_getitem.
Qed.

Lemma rag_agents_retrieve_run sv q tr :
  RagAgents.retrieve sv q tr = Retrieving.retrieve sv q tr.
Proof. reflexivity. Qed.

Lemma fastapi_retrieve_run sv q tr :
  FastapiRagAgent.retrieve sv q tr = Retrieving.retrieve sv q tr.
Proof. reflexivity. Qed.

(** The retrieval of [main.py]. *)
Lemma main_get_embedding_run (sv : services) (text : pystr) (tr : list event) :
  Main.get_embedding sv text tr
  = match embed_answer sv tr text with
    | inl e =>
        (inr [], tr ++ [embed_request text; printed (lit "Cohere embedding error:") e])
    | inr [] =>
        (inr [], tr ++ [embed_request text;
                        printed (lit "Cohere embedding error:") IndexError])
    | inr (v :: _) => (inr v, tr ++ [embed_request text])
    end.
Proof.
  unfold Main.get_embedding, embed_answer, embed_request, printed. unfold_monad.
  destruct (cohere_embed sv tr _ _ _) as [e|[|v vs]]; try done;
    by rewrite <- (assoc_L (++)).
Qed.

Lemma main_retrieve_run (sv : services) (q : pystr) (tr : list event) :
  Main.retrieve sv q tr
  = match Main.get_embedding sv q tr with
    | (inr (x :: v), tr') =>
        match qdrant_query_points sv tr' (lit "humanoid_ai_book") (x :: v) 5 with
        | inl e =>
            (inr [], tr' ++ [search_request (x :: v);
                             printed (lit "Qdrant retrieve error:") e])
        | inr points => (inr (text_or_empty <$> points), tr' ++ [search_request (x :: v)])
        end
    | (_, tr') => (inr [], tr')
    end.
Proof.
  unfold Main.retrieve. unfold try_except at 1. unfold mbind at 1, M_bind, bind.
  pose proof (main_get_embedding_run sv q tr) as Hg.
  destruct (Main.get_embedding sv q tr) as [[e|[|x v]] tr'].
  - destruct (embed_answer sv tr q) as [?|[|? ?]]; discriminate.
  - done.
  - simpl. unfold_monad. unfold search_request, printed.
    destruct (qdrant_query_points sv tr' _ _ _) as [e|points].
    + by rewrite <- (assoc_L (++)).
    + reflexivity.
Qed.

Lemma main_retrieve_cases (sv : services) (q : pystr) (tr : list event) :
  Main.retrieve sv q tr
  = match embed_answer sv tr q with
    | inl e =>
        (inr [], tr ++ [embed_request q; printed (lit "Cohere embedding error:") e])
    | inr [] =>
        (inr [], tr ++ [embed_request q;
                        printed (lit "Cohere embedding error:") IndexError])
    | inr ([] :: _) => (inr [], tr ++ [embed_request q])
    | inr ((x :: v) :: _) =>
        match search_answer sv tr q (x :: v) with
        | inl e =>
            (inr [], tr ++ [embed_request q; search_request (x :: v);
                            printed (lit "Qdrant retrieve error:") e])
        | inr points =>
            (inr (text_or_empty <$> points),
             tr ++ [embed_request q; search_request (x :: v)])
        end
    end.
Proof.
  rewrite main_retrieve_run, main_get_embedding_run. unfold search_answer.
  destruct (embed_answer sv tr q) as [e|[|[|x v] vs]]; try done.
  destruct (qdrant_query_points sv _ _ _ _) as [e|points];
    by rewrite <- (assoc_L (++)).
Qed.


Lemma texts_of_length (points : list ScoredPoint) (texts : list pyval) :
  texts_of points = inr texts → length texts = length points.
Proof.
  revert texts. induction points as [|p ps IH]; intros texts; simpl.
  - by intros [= <-].
  - destruct (payload p !! lit "text"); [|done].
    destruct (texts_of ps) as [|ts]; [done|].
    intros [= <-]. simpl. f_equal. by apply IH.
Qed.

Lemma texts_of_missing (points : list ScoredPoint) :
  (∃ point, point ∈ points ∧ payload point !! lit "text" = None) →
  texts_of points = inl (KeyError (lit "text")).
Proof.
  intros (p & Hin & Hp). induction Hin as [p ps|p p' ps Hin IH]; simpl.
  - by rewrite Hp.
  - destruct (payload p' !! lit "text"); [|done]. by rewrite IH.
Qed.

Lemma texts_of_present (points : list ScoredPoint) :
  (∀ point, point ∈ points → is_Some (payload point !! lit "text")) →
  texts_of points = inr (text_or_empty <$> points).
Proof.
  induction points as [|p ps IH]; intros Hall; simpl; [done|].
  unfold text_or_empty at 1.
  destruct (Hall p) as [t ->]; [by left|].
  rewrite IH; [done|]. intros p' Hp'. apply Hall. by right.
Qed.

Example healthy_main_retrieve :
  Main.retrieve healthy question []
  = (inr [ PStr (lit "Module 1: ROS 2 fundamentals");
           PStr (lit "Module 2: simulation with Gazebo");
           PStr (lit "");
           PStr (lit "Module 3: NVIDIA Isaac");
           PStr (lit "Module 4: vision language action") ],
     [embed_request question; search_request sample_vector]).
Proof. vm_compute. reflexivity. Qed.

Example healthy_retrieving_retrieve :
  Retrieving.retrieve healthy question []
  = (inl (KeyError (lit "text")),
     [embed_request question; search_request sample_vector]).
Proof. vm_compute. reflexivity. Qed.

Example down_main_retrieve :
  Main.retrieve down question []
  = (inr [], [embed_request question;
              printed (lit "Cohere embedding error:") connection_error]).
Proof. vm_compute. reflexivity. Qed.

(** When both services answer and every point carries its text, the
    retrieval without exception handling returns the texts as well. *)
Lemma plain_retrieve_returns
    (sv : services) (q : pystr) (tr : list event) (v : vector)
    (points : list ScoredPoint) :
  retrieval_answers sv tr q = Some (v, points) →
  (∀ point, point ∈ points → is_Some (payload point !! lit "text")) →
  Retrieving.retrieve sv q tr
  = (inr (text_or_empty <$> points), tr ++ [embed_request q; search_request v]).
Proof.
  unfold retrieval_answers. intros Hans Hall. rewrite plain_retrieve_run.
  destruct (embed_answer sv tr q) as [e'|[|v' vs]]; simplify_eq.
  destruct (search_answer sv tr q v') as [e'|points'] eqn:Hs; simplify_eq.
  by rewrite texts_of_present.
Qed.

(** ** The retrieval function *)

(** C1, as amended.  When the embedding step or the vector-search step of a
    retrieval raises, [retrieve] of [main.py] returns the empty list and
    nothing is raised past it; [retrieve] of [rag_agents.py] has no handler
    and raises that same exception to its caller. *)
Theorem C1_retrieve_failure_policy
    (sv : services) (q : pystr) (tr : list event) (e : exn) :
  retrieval_failure sv tr q = Some e →
  fst (Main.retrieve sv q tr) = inr []
  ∧ fst (RagAgents.retrieve sv q tr) = inl e.
Proof.
  unfold retrieval_failure. intros Hfail.
  rewrite rag_agents_retrieve_run, plain_retrieve_run, main_retrieve_cases.
  destruct (embed_answer sv tr q) as [e'|[|v vs]]; simplify_eq; [done..|].
  destruct (search_answer sv tr q v) as [e'|points] eqn:Hs; simplify_eq.
  destruct v as [|x v]; [done|]. by rewrite Hs.
Qed.

Lemma C1_retrieve_failure_policy_witness :
  retrieval_failure store_down [] question = Some connection_error
  ∧ fst (Main.retrieve store_down question []) = inr []
  ∧ fst (RagAgents.retrieve store_down question []) = inl connection_error.
Proof.
  split; [vm_compute; reflexivity|].
  apply (C1_retrieve_failure_policy store_down question [] connection_error).
  vm_compute; reflexivity.
Defined.

(** C1 fails as stated: with the embedding service down, [retrieve] of
    [rag_agents.py] does not return the empty list. *)
Lemma C1_rag_agents_retrieve_raises :
  ¬ (retrieval_failure down [] question ≠ None →
     fst (RagAgents.retrieve down question []) = inr []).
Proof.
  intros H. assert (Hne : retrieval_failure down [] question ≠ None)
    by (vm_compute; discriminate).
  specialize (H Hne). vm_compute in H. discriminate.
Qed.

(** C2, as amended.  When both services answer, [retrieve] of [main.py]
    returns one entry per point of the search result, in order: the point's
    text, or the empty string where its payload has no ['text'] field.
    [retrieve] of [fastapi_rag_agent.py] raises [KeyError] for the whole call
    as soon as one payload lacks the field. *)
Theorem C2_missing_text_degrades
    (sv : services) (q : pystr) (tr : list event)
    (x : float) (v : vector) (points : list ScoredPoint) :
  retrieval_answers sv tr q = Some (x :: v, points) →
  (∃ texts,
     fst (Main.retrieve sv q tr) = inr texts
     ∧ length texts = length points
     ∧ ∀ i point, points !! i = Some point →
         texts !! i = Some (match payload point !! lit "text" with
                            | Some t => t
                            | None => PStr (lit "")
                            end))
  ∧ ((∃ point, point ∈ points ∧ payload point !! lit "text" = None) →
     fst (FastapiRagAgent.retrieve sv q tr) = inl (KeyError (lit "text"))).
Proof.
  unfold retrieval_answers. intros Hans.
  rewrite fastapi_retrieve_run, plain_retrieve_run, main_retrieve_cases.
  destruct (embed_answer sv tr q) as [e'|[|v' vs]]; simplify_eq.
  destruct (search_answer sv tr q v') as [e'|points'] eqn:Hs; simplify_eq.
  rewrite Hs. split.
  - exists (text_or_empty <$> points). split_and!; [done|by rewrite length_fmap|].
    intros i point Hi. rewrite list_lookup_fmap, Hi. reflexivity.
  - intros Hmiss. simpl. by apply texts_of_missing.
Qed.

Lemma C2_missing_text_degrades_witness :
  ∃ texts, fst (Main.retrieve healthy question []) = inr texts
           ∧ length texts = 5%nat ∧ texts !! 2%nat = Some (PStr (lit "")).
Proof.
  destruct (C2_missing_text_degrades healthy question [] 0.5%float
              [0.25%float; (-1)%float] (take 5 sample_collection))
    as [(texts & Hret & Hlen & Hnth) _]; [vm_compute; reflexivity|].
  exists texts. split_and!; [exact Hret|exact Hlen|].
  apply (Hnth 2%nat (chunk None 0.625%float)). reflexivity.
Defined.

(** C2 fails as stated: the search result of the sample collection holds a
    point without text, and [retrieve] of [fastapi_rag_agent.py] returns no
    list for it. *)
Lemma C2_fastapi_retrieve_key_error :
  ¬ (retrieval_answers healthy [] question
       = Some (sample_vector, take 5 sample_collection) →
     ∃ texts, fst (FastapiRagAgent.retrieve healthy question []) = inr texts
              ∧ length texts = 5%nat).
Proof.
  intros H. destruct H as (texts & Hret & _); [vm_compute; reflexivity|].
  vm_compute in Hret. discriminate.
Qed.

Lemma healthy_honours_limit : honours_limit healthy.
Proof.
  intros tr c v limit points Hpos [= <-]. rewrite length_take. lia.
Qed.

Lemma texts_of_returns (points : list ScoredPoint) (texts : list pyval) :
  texts_of points = inr texts →
  ∀ point, point ∈ points → is_Some (payload point !! lit "text").
Proof.
  revert texts. induction points as [|p ps IH]; intros texts; simpl.
  - intros _ point Hin. by apply elem_of_nil in Hin.
  - destruct (payload p !! lit "text") as [t|] eqn:Hp; [|done].
    destruct (texts_of ps) as [|ts] eqn:Hps; [done|].
    intros _ point [->|Hin]%elem_of_cons; [by eexists|]. by eapply IH.
Qed.

(** C4, as amended.  [retrieve] does not cut its result to size: the bound is
    the vector store's.  In [main.py], for every query, [retrieve] returns a
    list; when the embedding is a vector that is not empty it sends the
    vector store exactly one request, for collection ['humanoid_ai_book'] with
    limit 5, and when the store answers the list has one entry per point of
    the answer; so the list has at most 5 entries whenever the store returns
    no more points than the limit it is given.  In [fastapi_rag_agent.py],
    [retrieve] sends that same one request whenever the embedding service
    answers with a vector, and returns a list, one entry per point and so of
    at most 5 entries under the same proviso, exactly when both services
    answer and every point carries its text; otherwise it raises. *)
Theorem C4_retrieve_at_most_five (sv : services) (q : pystr) (tr : list event) :
  (∃ texts evs,
     Main.retrieve sv q tr = (inr texts, tr ++ evs)
     ∧ searches_book_top5 evs
     ∧ (∀ x v vs,
          embed_answer sv tr q = inr ((x :: v) :: vs) →
          List.filter is_query_points evs
            = [EvQueryPoints (lit "humanoid_ai_book") (x :: v) 5]
          ∧ ∀ points, search_answer sv tr q (x :: v) = inr points →
                      length texts = length points)
     ∧ (honours_limit sv → (length texts ≤ 5)%nat))
  ∧ (∃ r evs,
       FastapiRagAgent.retrieve sv q tr = (r, tr ++ evs)
       ∧ searches_book_top5 evs
       ∧ (∀ v vs,
            embed_answer sv tr q = inr (v :: vs) →
            List.filter is_query_points evs
              = [EvQueryPoints (lit "humanoid_ai_book") v 5])
       ∧ (∀ texts,
            r = inr texts ↔
            ∃ v points,
              retrieval_answers sv tr q = Some (v, points)
              ∧ (∀ point, point ∈ points → is_Some (payload point !! lit "text"))
              ∧ texts = text_or_empty <$> points)
       ∧ (honours_limit sv → ∀ texts, r = inr texts → (length texts ≤ 5)%nat)).
Proof.
  rewrite fastapi_retrieve_run, plain_retrieve_run, main_retrieve_cases.
  unfold searches_book_top5, embed_request, search_request, printed,
    retrieval_answers.
  split.
  - destruct (embed_answer sv tr q) as [e|[|[|x v] vs]];
      try (eexists [], _; split_and!;
           [reflexivity|intros; solve_events|intros; simplify_eq|simpl; lia]).
    destruct (search_answer sv tr q (x :: v)) as [e|points] eqn:Hs.
    + eexists [], _; split_and!; [reflexivity|intros; solve_events| |simpl; lia].
      intros x' v' vs' [= <- <- <-]. split; [done|]. intros; congruence.
    + eexists _, _; split_and!; [reflexivity|intros; solve_events| |].
      * intros x' v' vs' [= <- <- <-]. split; [done|].
        intros points' Hp. rewrite Hs in Hp. injection Hp as <-.
        by rewrite length_fmap.
      * intros Hlim. apply Hlim in Hs; [|lia]. rewrite length_fmap. lia.
  - destruct (embed_answer sv tr q) as [e|[|v vs]];
      try (eexists _, _; split_and!;
           [reflexivity|intros; solve_events|intros; simplify_eq
           |intros texts; split; [done|intros (?&?&?&?); simplify_eq]
           |done]).
    eexists _, _; split_and!; [reflexivity|intros; solve_events| | |].
    + by intros v' vs' [= <- <-].
    + intros texts.
      destruct (search_answer sv tr q v) as [e|points] eqn:Hs.
      { split; [done|intros (?&?&?&?); simplify_eq]. }
      split.
      * intros Htexts. exists v, points. split_and!; [done|by eapply texts_of_returns|].
        rewrite texts_of_present in Htexts by (by eapply texts_of_returns).
        by injection Htexts as <-.
      * intros (v' & points' & [= <- <-] & Hall & ->). by apply texts_of_present.
    + intros Hlim texts Htexts.
      destruct (search_answer sv tr q v) as [e|points] eqn:Hs; [done|].
      apply texts_of_length in Htexts. apply Hlim in Hs; lia.
Qed.

Lemma C4_retrieve_at_most_five_witness :
  ∃ texts evs,
    Main.retrieve healthy question [] = (inr texts, [] ++ evs)
    ∧ List.filter is_query_points evs
      = [EvQueryPoints (lit "humanoid_ai_book") sample_vector 5]
    ∧ (length texts ≤ 5)%nat.
Proof.
  destruct (proj1 (C4_retrieve_at_most_five healthy question []))
    as (texts & evs & Hret & _ & Hsearch & Hbound).
  exists texts, evs. split_and!; [exact Hret| |exact (Hbound healthy_honours_limit)].
  apply (Hsearch 0.5%float [0.25%float; (-1)%float] []). vm_compute. reflexivity.
Defined.

(** C4 fails as stated: a vector store that returns its whole collection,
    whatever the limit, makes [retrieve] of [main.py] return seven entries;
    and with the services down [retrieve] of [fastapi_rag_agent.py] returns
    no list at all. *)
Lemma C4_retrieve_is_not_bounded_by_itself :
  ¬ (∃ texts, fst (Main.retrieve overfull question []) = inr texts
              ∧ (length texts ≤ 5)%nat)
  ∧ ¬ (∃ texts, fst (FastapiRagAgent.retrieve down question []) = inr texts
                ∧ (length texts ≤ 5)%nat).
Proof.
  split; intros (texts & Hret & Hlen); vm_compute in Hret.
  - injection Hret as <-. simpl in Hlen. lia.
  - discriminate.
Qed.

(** ** The embedding client *)

(** C8.  For every text, [get_embedding] (of [main.py] and of
    [retrieving.py]) sends the embedding service one request: input type
    ['search_query'] and the text alone in a list; anything else it adds to
    the trace is no request to that service.  When the service answers with
    a list of vectors, the result is the first of them. *)
Theorem C8_get_embedding_request (sv : services) (text : pystr) (tr : list event) :
  snd (Retrieving.get_embedding sv text tr)
    = tr ++ [EvEmbed (lit "embed-english-v3.0") (lit "search_query") [text]]
  ∧ (∃ evs,
       snd (Main.get_embedding sv text tr)
         = tr ++ EvEmbed (lit "embed-english-v3.0") (lit "search_query") [text] :: evs
       ∧ ∀ ev, ev ∈ evs → is_embed ev = false)
  ∧ ∀ v vs,
      cohere_embed sv tr (lit "embed-english-v3.0") (lit "search_query") [text]
        = inr (v :: vs) →
      fst (Retrieving.get_embedding sv text tr) = inr v
      ∧ fst (Main.get_embedding sv text tr) = inr v.
Proof.
  rewrite plain_get_embedding_run, main_get_embedding_run.
  unfold embed_answer, embed_request, printed. split_and!.
  - done.
  - destruct (cohere_embed sv tr _ _ _) as [e|[|v vs]]; simpl;
      eexists; (split; [reflexivity|]); intros ev Hev; solve_events;
      by subst ev.
  - intros v vs ->. done.
Qed.

Lemma C8_get_embedding_request_witness :
  fst (Retrieving.get_embedding healthy question []) = inr sample_vector
  ∧ fst (Main.get_embedding healthy question []) = inr sample_vector.
Proof.
  apply (proj2 (proj2 (C8_get_embedding_request healthy question []))
           sample_vector []).
  vm_compute. reflexivity.
Defined.

(** C9.  In [main.py], when [get_embedding] yields the empty vector,
    [retrieve] returns the empty list and stops there: it adds no request to
    the vector store to the trace, and its outcome is the same whatever the
    vector store would have answered. *)
Theorem C9_empty_embedding_skips_search
    (sv : services) (q : pystr) (tr : list event) :
  fst (Main.get_embedding sv q tr) = inr [] →
  Main.retrieve sv q tr = (inr [], snd (Main.get_embedding sv q tr))
  ∧ (∃ evs, snd (Main.retrieve sv q tr) = tr ++ evs
            ∧ ∀ ev, ev ∈ evs → is_query_points ev = false)
  ∧ ∀ store,
      Main.retrieve {| cohere_embed := cohere_embed sv;
                       qdrant_query_points := store;
                       agents_run := agents_run sv |} q tr
      = Main.retrieve sv q tr.
Proof.
  intros Hemb. split_and!.
  - rewrite main_retrieve_run.
    by destruct (Main.get_embedding sv q tr) as [[e|[|x v]] tr']; simplify_eq/=.
  - rewrite main_retrieve_run. revert Hemb. rewrite main_get_embedding_run.
    unfold embed_request, printed.
    destruct (embed_answer sv tr q) as [e|[|[|x v] vs]]; intros Hemb; simplify_eq/=;
      eexists; (split; [reflexivity|]); intros ev Hev; solve_events; by subst ev.
  - intros store. rewrite !main_retrieve_run.
    replace (Main.get_embedding _ q tr) with (Main.get_embedding sv q tr)
      by (by rewrite !main_get_embedding_run).
    by destruct (Main.get_embedding sv q tr) as [[e|[|x v]] tr']; simplify_eq/=.
Qed.

Lemma C9_empty_embedding_skips_search_witness :
  Main.retrieve empty_embedding question []
  = (inr [], snd (Main.get_embedding empty_embedding question [])).
Proof.
  apply (C9_empty_embedding_skips_search empty_embedding question []).
  vm_compute. reflexivity.
Defined.

Example empty_embedding_trace :
  snd (Main.retrieve empty_embedding question []) = [embed_request question].
Proof. vm_compute. reflexivity. Qed.

(** ** The HTTP front door *)

Lemma main_ask_agent_run (sv : services) (req : QueryRequest) (tr : list event) :
  Main.app sv (POST_ask req) tr
  = if forallb py_isspace (query req)
    then (ok {[ lit "answer" := PStr (lit "Query is empty.") ]}, tr)
    else match agent_outcome sv (Main.agent sv) req tr with
         | (inr result, tr') =>
             (ok {[ lit "answer" :=
                      py_or (final_output result) (PStr (lit "I don't know")) ]}, tr')
         | (inl e, tr') =>
             (error_500 (lit "Internal server error. Check backend logs."),
              tr' ++ [printed (lit "Agent error:") e])
         end.
Proof.
  unfold Main.app, endpoint, Main.ask_agent, agent_outcome, printed.
  unfold try_except at 1.
  destruct (forallb py_isspace (query req)) eqn:Hblank.
  - by rewrite (blank_not_truthy _ Hblank).
  - rewrite (not_blank_truthy _ Hblank). unfold_monad.
    by destruct (agents_run sv _ _ _) as [[e|result] tr'].
Qed.

Lemma fastapi_ask_agent_run (sv : services) (req : QueryRequest) (tr : list event) :
  FastapiRagAgent.app sv (POST_ask req) tr
  = match agent_outcome sv (FastapiRagAgent.agent sv) req tr with
    | (inr result, tr') => (ok {[ lit "answer" := final_output result ]}, tr')
    | (inl e, tr') => (error_500 (str_exn e), tr')
    end.
Proof.
  unfold FastapiRagAgent.app, endpoint, FastapiRagAgent.ask_agent, agent_outcome.
  unfold_monad.
  by destruct (agents_run sv _ _ _) as [[e|result] tr'].
Qed.

(** C3, as amended.  In [main.py], a request to [POST /ask] whose query is
    empty or nothing but whitespace is answered, with status 200, by
    [{"answer": "Query is empty."}], and the trace is left as it was: neither
    the agent nor any service is invoked.  [fastapi_rag_agent.py] has no such
    check: there the same request is handed to the agent runtime. *)
Theorem C3_blank_query_short_circuits
    (sv : services) (req : QueryRequest) (tr : list event) :
  forallb py_isspace (query req) = true →
  Main.app sv (POST_ask req) tr
    = ({| status := 200;
          body := JSON {[ lit "answer" := PStr (lit "Query is empty.") ]} |}, tr)
  ∧ snd (FastapiRagAgent.app sv (POST_ask req) tr)
    = snd (agents_run sv (FastapiRagAgent.agent sv) (query req)
             (tr ++ [EvRunSync (lit "Physical AI Tutor") (query req)])).
Proof.
  intros Hblank. rewrite main_ask_agent_run, Hblank, fastapi_ask_agent_run.
  split; [done|]. unfold agent_outcome. simpl.
  by destruct (agents_run sv _ _ _) as [[e|result] tr'].
Qed.

Lemma C3_blank_query_short_circuits_witness :
  Main.app healthy (POST_ask blank_request) []
  = ({| status := 200;
        body := JSON {[ lit "answer" := PStr (lit "Query is empty.") ]} |}, []).
Proof.
  apply (C3_blank_query_short_circuits healthy blank_request []).
  vm_compute. reflexivity.
Defined.

(** C3 fails as stated: [fastapi_rag_agent.py] invokes the agent, and through
    it both services, on a query of whitespace. *)
Lemma C3_fastapi_invokes_agent_on_blank_query :
  ¬ (forallb py_isspace (query blank_request) = true →
     FastapiRagAgent.app healthy (POST_ask blank_request) []
     = ({| status := 200;
           body := JSON {[ lit "answer" := PStr (lit "Query is empty.") ]} |}, [])).
Proof.
  intros H. assert (Hblank : forallb py_isspace (query blank_request) = true)
    by (vm_compute; reflexivity).
  apply H, (f_equal snd) in Hblank. vm_compute in Hblank. discriminate.
Qed.

Example fastapi_blank_query_trace :
  snd (FastapiRagAgent.app healthy (POST_ask blank_request) [])
  = [ EvRunSync (lit "Physical AI Tutor") (query blank_request);
      embed_request (query blank_request);
      search_request sample_vector ].
Proof. vm_compute. reflexivity. Qed.

(** C5, as amended.  In [main.py], when the agent invocation of a request to
    [POST /ask] raises, the response has status 500 and the fixed detail
    ["Internal server error. Check backend logs."], whatever the exception;
    the exception is printed on the server.  In [fastapi_rag_agent.py] the
    response has status 500 too, but its detail is the text of the exception
    and nothing is printed. *)
Theorem C5_agent_failure_response
    (sv : services) (req : QueryRequest) (tr tr' : list event) (e : exn) :
  (forallb py_isspace (query req) = false →
   agent_outcome sv (Main.agent sv) req tr = (inl e, tr') →
   Main.app sv (POST_ask req) tr
   = ({| status := 500;
         body := JSON {[ lit "detail" :=
                           PStr (lit "Internal server error. Check backend logs.") ]} |},
      tr' ++ [EvPrint (lit "Agent error:" ++ lit " " ++ str_exn e)]))
  ∧ (agent_outcome sv (FastapiRagAgent.agent sv) req tr = (inl e, tr') →
     FastapiRagAgent.app sv (POST_ask req) tr
     = ({| status := 500; body := JSON {[ lit "detail" := PStr (str_exn e) ]} |}, tr')).
Proof.
  split.
  - intros Hblank Hrun. by rewrite main_ask_agent_run, Hblank, Hrun.
  - intros Hrun. by rewrite fastapi_ask_agent_run, Hrun.
Qed.

Lemma C5_agent_failure_response_witness :
  Main.app down (POST_ask question_request) []
  = ({| status := 500;
        body := JSON {[ lit "detail" :=
                          PStr (lit "Internal server error. Check backend logs.") ]} |},
     [ EvRunSync (lit "Physical AI Tutor") question ]
     ++ [EvPrint (lit "Agent error:" ++ lit " " ++ str_exn connection_error)]).
Proof.
  apply (proj1 (C5_agent_failure_response down question_request []
                  [EvRunSync (lit "Physical AI Tutor") question] connection_error));
    vm_compute; reflexivity.
Defined.

Example fastapi_down_response :
  FastapiRagAgent.app down (POST_ask question_request) []
  = ({| status := 500;
        body := JSON {[ lit "detail" :=
                          PStr (lit "upstream unreachable at 10.0.0.7:6333") ]} |},
     [ EvRunSync (lit "Physical AI Tutor") question ]).
Proof. vm_compute. reflexivity. Qed.

(** C5 fails as stated: in [fastapi_rag_agent.py], when the agent invocation
    raises, the detail of the 500 response is not kept apart from the
    exception: it is the exception's text. *)
Lemma C5_fastapi_detail_is_the_exception :
  ¬ (fst (agent_outcome down (FastapiRagAgent.agent down) question_request [])
       = inl connection_error →
     ∃ detail,
       fst (FastapiRagAgent.app down (POST_ask question_request) [])
         = {| status := 500; body := JSON {[ lit "detail" := PStr detail ]} |}
       ∧ detail ≠ str_exn connection_error).
Proof.
  intros H. destruct H as (detail & Hresp & Hne); [vm_compute; reflexivity|].
  rewrite fastapi_down_response in Hresp.
  apply (f_equal (λ r, match body r with
                       | JSON d => d !! lit "detail"
                       | PlainText _ => None
                       end)) in Hresp.
  cbn beta iota delta [body fst] in Hresp.
  rewrite !lookup_singleton_eq in Hresp. injection Hresp as <-. by apply Hne.
Qed.

(** C10.  In [main.py], for a request whose agent invocation succeeds, the
    answer of the 200 response is the agent's final output when that is
    true in Python's sense, and the literal ["I don't know"] otherwise, in
    particular when the final output is [None] or the empty string; so the
    answer is never the empty string (nor [None]). *)
Theorem C10_empty_answer_fallback
    (sv : services) (req : QueryRequest) (tr tr' : list event) (result : RunResult) :
  forallb py_isspace (query req) = false →
  agent_outcome sv (Main.agent sv) req tr = (inr result, tr') →
  ∃ answer,
    Main.app sv (POST_ask req) tr
      = ({| status := 200; body := JSON {[ lit "answer" := answer ]} |}, tr')
    ∧ (final_output result = PNone ∨ final_output result = PStr (lit "") →
       answer = PStr (lit "I don't know"))
    ∧ (truthy (final_output result) = false → answer = PStr (lit "I don't know"))
    ∧ (truthy (final_output result) = true → answer = final_output result)
    ∧ answer ≠ PStr (lit "") ∧ answer ≠ PNone.
Proof.
  intros Hblank Hrun. rewrite main_ask_agent_run, Hblank, Hrun.
  exists (py_or (final_output result) (PStr (lit "I don't know"))).
  unfold py_or. split_and!.
  - done.
  - by intros [-> | ->].
  - by intros ->.
  - by intros ->.
  - destruct (truthy (final_output result)) eqn:Ht; [|done].
    intros Heq. by rewrite Heq in Ht.
  - destruct (truthy (final_output result)) eqn:Ht; [|done].
    intros Heq. by rewrite Heq in Ht.
Qed.

Lemma C10_empty_answer_fallback_witness :
  ∃ answer,
    Main.app (answering (PStr (lit ""))) (POST_ask question_request) []
      = ({| status := 200; body := JSON {[ lit "answer" := answer ]} |},
         [ EvRunSync (lit "Physical AI Tutor") question ])
    ∧ answer = PStr (lit "I don't know").
Proof.
  destruct (C10_empty_answer_fallback (answering (PStr (lit ""))) question_request []
              [EvRunSync (lit "Physical AI Tutor") question]
              {| final_output := PStr (lit "") |})
    as (answer & Hresp & Hnone & _); [vm_compute; reflexivity..|].
  exists answer. split; [exact Hresp|]. apply Hnone. by right.
Defined.

Example answering_none :
  fst (Main.app (answering PNone) (POST_ask question_request) [])
  = ok {[ lit "answer" := PStr (lit "I don't know") ]}.
Proof. vm_compute. reflexivity. Qed.

(** C7.  [GET /] is answered, in both web services, with status 200 and
    [{"message": "Humanoid AI RAG Agent is running"}], for every record of
    services and every history; nothing is added to the trace, so no service
    is contacted. *)
Theorem C7_root_is_static (sv : services) (tr : list event) :
  Main.app sv GET_root tr
    = ({| status := 200;
          body := JSON {[ lit "message" :=
                            PStr (lit "Humanoid AI RAG Agent is running") ]} |}, tr)
  ∧ FastapiRagAgent.app sv GET_root tr
    = ({| status := 200;
          body := JSON {[ lit "message" :=
                            PStr (lit "Humanoid AI RAG Agent is running") ]} |}, tr).
Proof. split; reflexivity. Qed.

(** ** Start-up *)

Lemma configured_false (environ : gmap pystr pystr) (key : pystr) :
  configured environ key = false ↔ environ !! key = None ∨ environ !! key = Some [].
Proof.
  unfold configured, os_getenv, truthy_opt_str.
  destruct (environ !! key) as [[|c s]|]; simpl;
    (split; [intros; first [by left | by right | discriminate]
            |intros [?|?]; congruence]).
Qed.


(** The check of [main.py]: the names that are missing, in the order of the
    dictionary, are reported together. *)
Lemma main_module_init_run (environ : gmap pystr pystr) :
  Main.module_init environ
  = if forallb (configured environ) required_variables
    then inr (read_environment environ)
    else inl (PyException (lit "RuntimeError")
                (lit "Missing required environment variables: "
                 ++ join (lit ", ")
                      (filter (λ key, configured environ key = false)
                         required_variables))).
Proof.
  unfold Main.module_init, required_variables, read_environment. simpl.
  rewrite !filter_cons, filter_nil. unfold configured.
  destruct (truthy_opt_str (os_getenv environ (lit "GEMINI_API_KEY")));
    destruct (truthy_opt_str (os_getenv environ (lit "COHERE_API_KEY")));
    destruct (truthy_opt_str (os_getenv environ (lit "QDRANT_URL")));
    destruct (truthy_opt_str (os_getenv environ (lit "QDRANT_API_KEY")));
    reflexivity.
Qed.

(** The check of [rag_agents.py] and [fastapi_rag_agent.py]. *)
Lemma fastapi_module_init_run (environ : gmap pystr pystr) :
  FastapiRagAgent.module_init environ
  = if forallb (configured environ) required_variables
    then inr (read_environment environ)
    else inl (PyException (lit "ValueError")
                (lit "Missing required environment variables")).
Proof.
  unfold FastapiRagAgent.module_init, required_variables, read_environment, py_all.
  simpl. unfold configured, id.
  destruct (truthy_opt_str (os_getenv environ (lit "GEMINI_API_KEY")));
    destruct (truthy_opt_str (os_getenv environ (lit "COHERE_API_KEY")));
    destruct (truthy_opt_str (os_getenv environ (lit "QDRANT_URL")));
    destruct (truthy_opt_str (os_getenv environ (lit "QDRANT_API_KEY")));
    reflexivity.
Qed.

Lemma rag_agents_module_init_run (environ : gmap pystr pystr) :
  RagAgents.module_init environ = FastapiRagAgent.module_init environ.
Proof. reflexivity. Qed.




Example partial_environment_main :
  Main.module_init partial_environment
  = inl (PyException (lit "RuntimeError")
           (lit "Missing required environment variables: QDRANT_URL, QDRANT_API_KEY")).
Proof. vm_compute. reflexivity. Qed.


Example full_environment_main :
  Main.load checking_scheme full_environment
  = inr {| globals := {| GEMINI_API_KEY := Some (lit "g-key");
                         COHERE_API_KEY := Some (lit "c-key");
                         QDRANT_URL := Some (lit "https://qdrant.example:6333");
                         QDRANT_API_KEY := Some (lit "q-key") |};
           application := Some Main.app |}.
Proof. vm_compute. reflexivity. Qed.


(** All four variables are set, and the vector-store client refuses the URL:
    the check passes and the module raises where it constructs that client. *)
Example ftp_environment_main :
  Main.module_init ftp_environment = inr (read_environment ftp_environment)
  ∧ Main.load checking_scheme ftp_environment
    = inl (PyException (lit "ValueError") (lit "Unknown scheme: ftp"))
  ∧ FastapiRagAgent.load checking_scheme ftp_environment
    = inl (PyException (lit "ValueError") (lit "Unknown scheme: ftp")).
Proof. split_and!; vm_compute; reflexivity. Qed.

(** * Further properties of the scripts *)

(** ** Retrieval *)

(** X1.  [get_embedding] of [main.py] never raises: its result is the first
    vector of the embedding service's answer, or else the empty vector. *)
Theorem X1_main_get_embedding_never_raises
    (sv : services) (text : pystr) (tr : list event) :
  ∃ v, fst (Main.get_embedding sv text tr) = inr v
       ∧ (v = [] ∨ ∃ vs, embed_answer sv tr text = inr (v :: vs)).
Proof.
  rewrite main_get_embedding_run.
  destruct (embed_answer sv tr text) as [e|[|v vs]]; simpl; eauto.
Qed.



(** X3.  A retrieval first sends its one request to the embedding service;
    a request to the vector store, if any, comes after it, is the only one,
    and carries the vector [get_embedding] returned, which in [main.py] is
    never the empty vector. *)
Theorem X3_search_carries_the_embedding
    (sv : services) (q : pystr) (tr : list event) :
  (∃ evs,
     snd (Retrieving.retrieve sv q tr) = tr ++ embed_request q :: evs
     ∧ (evs = []
        ∨ ∃ v, evs = [search_request v]
               ∧ fst (Retrieving.get_embedding sv q tr) = inr v))
  ∧ (∃ evs,
       snd (Main.retrieve sv q tr) = tr ++ embed_request q :: evs
       ∧ (∀ ev, ev ∈ evs → is_embed ev = false)
       ∧ ∀ collection_name v limit,
           EvQueryPoints collection_name v limit ∈ evs →
           v ≠ []
           ∧ fst (Main.get_embedding sv q tr) = inr v
           ∧ List.filter is_query_points evs
             = [EvQueryPoints collection_name v limit]).
Proof.
  rewrite plain_retrieve_run, plain_get_embedding_run,
    main_retrieve_cases, main_get_embedding_run.
  unfold search_request, printed. split.
  - destruct (embed_answer sv tr q) as [e|[|v vs]]; simpl;
      (eexists; split; [reflexivity|]); eauto.
  - destruct (embed_answer sv tr q) as [e|[|[|x v] vs]]; simpl;
      try (eexists; split_and!; [reflexivity|intros; by event_cases
                                |intros; by event_cases]).
    destruct (search_answer sv tr q (x :: v)) as [e|points]; simpl;
      (eexists; split_and!; [reflexivity|intros; by event_cases
                            |intros; by event_cases]).
Qed.

Lemma X3_search_carries_the_embedding_witness :
  ∃ evs,
    snd (Main.retrieve healthy question []) = [] ++ embed_request question :: evs
    ∧ fst (Main.get_embedding healthy question []) = inr sample_vector.
Proof.
  destruct (proj2 (X3_search_carries_the_embedding healthy question []))
    as (evs & Hevs & _ & Hsearch).
  exists evs. split; [exact Hevs|].
  apply (Hsearch (lit "humanoid_ai_book") sample_vector 5).
  vm_compute in Hevs. injection Hevs as <-. by left.
Defined.

(** X4.  [retrieve] of [main.py] prints what it swallows: a line is printed
    only when a step of the retrieval failed, and then it ends with the
    text of the exception; an exception of the embedding service is printed
    under ["Cohere embedding error:"], one of the vector store under
    ["Qdrant retrieve error:"]. *)
Theorem X4_main_retrieve_prints_failures
    (sv : services) (q : pystr) (tr : list event) :
  ∃ evs,
    snd (Main.retrieve sv q tr) = tr ++ evs
    ∧ (∀ line, EvPrint line ∈ evs →
         ∃ e, retrieval_failure sv tr q = Some e
              ∧ (line = lit "Cohere embedding error:" ++ lit " " ++ str_exn e
                 ∨ line = lit "Qdrant retrieve error:" ++ lit " " ++ str_exn e))
    ∧ (∀ e, embed_answer sv tr q = inl e →
         EvPrint (lit "Cohere embedding error:" ++ lit " " ++ str_exn e) ∈ evs)
    ∧ (∀ x v vs e,
         embed_answer sv tr q = inr ((x :: v) :: vs) →
         search_answer sv tr q (x :: v) = inl e →
         EvPrint (lit "Qdrant retrieve error:" ++ lit " " ++ str_exn e) ∈ evs).
Proof.
  rewrite main_retrieve_cases. unfold retrieval_failure, printed, embed_request,
    search_request.
  destruct (embed_answer sv tr q) as [e|[|[|x v] vs]]; simpl.
  - eexists; split_and!; [reflexivity|..].
    + intros line Hin. event_cases. eauto.
    + intros e' [= <-]. set_solver.
    + intros; simplify_eq.
  - eexists; split_and!; [reflexivity|..].
    + intros line Hin. event_cases. eauto.
    + intros; simplify_eq.
    + intros; simplify_eq.
  - eexists; split_and!; [reflexivity|..].
    + intros line Hin. event_cases.
    + intros; simplify_eq.
    + intros; simplify_eq.
  - destruct (search_answer sv tr q (x :: v)) as [e|points] eqn:Hs; simpl;
      (eexists; split_and!; [reflexivity|..]).
    + intros line Hin. event_cases. eauto.
    + intros; simplify_eq.
    + intros x' v' vs' e' [= <- <- <-]. rewrite Hs. intros [= <-]. set_solver.
    + intros line Hin. event_cases.
    + intros; simplify_eq.
    + intros x' v' vs' e' [= <- <- <-]. rewrite Hs. intros; simplify_eq.
Qed.

Lemma X4_main_retrieve_prints_failures_witness :
  ∃ evs,
    snd (Main.retrieve store_down question []) = [] ++ evs
    ∧ EvPrint (lit "Qdrant retrieve error:" ++ lit " " ++ str_exn connection_error)
      ∈ evs.
Proof.
  destruct (X4_main_retrieve_prints_failures store_down question [])
    as (evs & Hevs & _ & _ & Hstore).
  exists evs. split; [exact Hevs|].
  apply (Hstore 0.5%float [0.25%float; (-1)%float] []); vm_compute; reflexivity.
Defined.

(** X5.  When both services answer, the embedding is not empty and every
    point carries its text, the four scripts retrieve alike: same result,
    same requests, nothing printed. *)
Theorem X5_variants_agree_on_answers
    (sv : services) (q : pystr) (tr : list event)
    (x : float) (v : vector) (points : list ScoredPoint) :
  retrieval_answers sv tr q = Some (x :: v, points) →
  (∀ point, point ∈ points → is_Some (payload point !! lit "text")) →
  Main.get_embedding sv q tr = Retrieving.get_embedding sv q tr
  ∧ Main.retrieve sv q tr = Retrieving.retrieve sv q tr
  ∧ RagAgents.retrieve sv q tr = Main.retrieve sv q tr
  ∧ FastapiRagAgent.retrieve sv q tr = Main.retrieve sv q tr
  ∧ Main.retrieve sv q tr
    = (inr (text_or_empty <$> points),
       tr ++ [embed_request q; search_request (x :: v)]).
Proof.
  intros Hans Hall.
  change (RagAgents.retrieve sv q tr) with (Retrieving.retrieve sv q tr).
  change (FastapiRagAgent.retrieve sv q tr) with (Retrieving.retrieve sv q tr).
  rewrite (plain_retrieve_returns _ _ _ _ _ Hans Hall).
  rewrite main_retrieve_cases, main_get_embedding_run, plain_get_embedding_run.
  revert Hans. unfold retrieval_answers.
  destruct (embed_answer sv tr q) as [e|[|v' vs]]; [done..|].
  destruct (search_answer sv tr q v') as [e|points'] eqn:Hs; [done|].
  intros [= -> ->]. by rewrite Hs.
Qed.

Lemma X5_variants_agree_on_answers_witness :
  Main.retrieve two_chunks question [] = Retrieving.retrieve two_chunks question [].
Proof.
  apply (X5_variants_agree_on_answers two_chunks question [] 0.5%float
           [0.25%float; (-1)%float] (take 2 sample_collection)).
  - vm_compute. reflexivity.
  - intros point Hpoint. simpl in Hpoint. event_cases; vm_compute; eauto.
Defined.

(** X6.  When the embedding service answers with an empty list of vectors,
    taking its first element fails: [get_embedding] of [retrieving.py]
    raises [IndexError], and so does [retrieve], before any request to the
    vector store; [get_embedding] of [main.py] prints the error and returns
    the empty vector. *)
Theorem X6_empty_list_of_vectors
    (sv : services) (text : pystr) (tr : list event) :
  embed_answer sv tr text = inr [] →
  Retrieving.get_embedding sv text tr = (inl IndexError, tr ++ [embed_request text])
  ∧ Retrieving.retrieve sv text tr = (inl IndexError, tr ++ [embed_request text])
  ∧ Main.get_embedding sv text tr
    = (inr [], tr ++ [embed_request text;
                      EvPrint (lit "Cohere embedding error:" ++ lit " "
                               ++ lit "list index out of range")]).
Proof.
  intros Hemb.
  by rewrite plain_get_embedding_run, plain_retrieve_run, main_get_embedding_run, Hemb.
Qed.

Lemma X6_empty_list_of_vectors_witness :
  Retrieving.retrieve no_vectors question []
  = (inl IndexError, [] ++ [embed_request question]).
Proof.
  apply (X6_empty_list_of_vectors no_vectors question []).
  vm_compute. reflexivity.
Defined.

(** X7.  [retrieve] of [fastapi_rag_agent.py] has no check of the embedding:
    an empty vector is sent to the vector store as the query, and the
    outcome is the store's; [retrieve] of [main.py] sends nothing on the
    same answer. *)
Theorem X7_plain_retrieve_sends_empty_embedding
    (sv : services) (q : pystr) (tr : list event) (vs : list vector) :
  embed_answer sv tr q = inr ([] :: vs) →
  FastapiRagAgent.retrieve sv q tr
  = (match search_answer sv tr q [] with
     | inl e => inl e
     | inr points => texts_of points
     end, tr ++ [embed_request q; EvQueryPoints (lit "humanoid_ai_book") [] 5])
  ∧ snd (Main.retrieve sv q tr) = tr ++ [embed_request q].
Proof.
  intros Hemb.
  by rewrite fastapi_retrieve_run, plain_retrieve_run, main_retrieve_cases, Hemb.
Qed.

Lemma X7_plain_retrieve_sends_empty_embedding_witness :
  snd (FastapiRagAgent.retrieve empty_embedding question [])
  = [embed_request question; EvQueryPoints (lit "humanoid_ai_book") [] 5].
Proof.
  apply (f_equal snd
    (proj1 (X7_plain_retrieve_sends_empty_embedding empty_embedding question [] []
              eq_refl))).
Defined.

(** ** The HTTP front door *)

(** X8.  Whatever the services do, [POST /ask] is answered in one of two
    shapes: status 200 with a JSON object holding ["answer"], or status 500
    with a JSON object holding ["detail"]; no exception of the handler
    reaches the framework.  In [main.py] the detail is the fixed text, in
    [fastapi_rag_agent.py] it is the text of some exception. *)
Theorem X8_ask_answers_or_500
    (sv : services) (req : QueryRequest) (tr : list event) :
  ((∃ answer,
      fst (Main.app sv (POST_ask req) tr)
      = {| status := 200; body := JSON {[ lit "answer" := answer ]} |})
   ∨ fst (Main.app sv (POST_ask req) tr)
     = {| status := 500;
          body := JSON {[ lit "detail" :=
                            PStr (lit "Internal server error. Check backend logs.") ]} |})
  ∧ ((∃ answer,
        fst (FastapiRagAgent.app sv (POST_ask req) tr)
        = {| status := 200; body := JSON {[ lit "answer" := answer ]} |})
     ∨ ∃ e,
         fst (FastapiRagAgent.app sv (POST_ask req) tr)
         = {| status := 500; body := JSON {[ lit "detail" := PStr (str_exn e) ]} |}).
Proof.
  rewrite main_ask_agent_run, fastapi_ask_agent_run. split.
  - destruct (forallb py_isspace (query req)); [left; by eexists|].
    destruct (agent_outcome sv (Main.agent sv) req tr) as [[e|result] tr'];
      [by right|left; by eexists].
  - destruct (agent_outcome sv (FastapiRagAgent.agent sv) req tr) as [[e|result] tr'];
      [right|left]; by eexists.
Qed.

Lemma answering_extends_trace (output : pyval) : runtime_extends_trace (answering output).
Proof. intros agent input tr. exists []. simpl. by rewrite app_nil_r. Qed.

(** X9.  Given an agent runtime that only adds to the trace: [main.py] hands
    every query that is not blank to the runtime, and
    [fastapi_rag_agent.py] every query; the invocation is recorded right
    after the history, for the agent ["Physical AI Tutor"], and its input is
    the query as it was sent, surrounding whitespace included. *)
Theorem X9_agent_receives_the_query
    (sv : services) (req : QueryRequest) (tr : list event) :
  runtime_extends_trace sv →
  (forallb py_isspace (query req) = false →
   ∃ evs, snd (Main.app sv (POST_ask req) tr)
          = tr ++ EvRunSync (lit "Physical AI Tutor") (query req) :: evs)
  ∧ ∃ evs, snd (FastapiRagAgent.app sv (POST_ask req) tr)
           = tr ++ EvRunSync (lit "Physical AI Tutor") (query req) :: evs.
Proof.
  intros Hext. rewrite main_ask_agent_run, fastapi_ask_agent_run.
  unfold agent_outcome. split.
  - intros ->.
    destruct (Hext (Main.agent sv) (query req)
                (tr ++ [EvRunSync (name (Main.agent sv)) (query req)]))
      as [evs Hevs].
    destruct (agents_run sv (Main.agent sv) _ _) as [[e|result] tr'];
      simpl in *; subst tr'; rewrite <- !(assoc_L (++)); eauto.
  - destruct (Hext (FastapiRagAgent.agent sv) (query req)
                (tr ++ [EvRunSync (name (FastapiRagAgent.agent sv)) (query req)]))
      as [evs Hevs].
    destruct (agents_run sv (FastapiRagAgent.agent sv) _ _) as [[e|result] tr'];
      simpl in *; subst tr'; rewrite <- !(assoc_L (++)); eauto.
Qed.

Lemma X9_agent_receives_the_query_witness :
  ∃ evs, snd (Main.app (answering PNone) (POST_ask padded_request) [])
         = [] ++ EvRunSync (lit "Physical AI Tutor") (lit "  What is ROS 2?  ") :: evs.
Proof.
  apply (proj1 (X9_agent_receives_the_query (answering PNone) padded_request []
                  (answering_extends_trace PNone))).
  vm_compute. reflexivity.
Defined.

(** X10.  For a query that is not blank and a final output [result] that both
    agents' invocations produce, [main.py] and [fastapi_rag_agent.py] send the
    same response exactly when the final output is true in Python's sense:
    the fallback of [main.py] is the only difference. *)
Theorem X10_services_differ_by_the_fallback
    (sv : services) (req : QueryRequest) (tr tr1 tr2 : list event)
    (result : RunResult) :
  forallb py_isspace (query req) = false →
  agent_outcome sv (Main.agent sv) req tr = (inr result, tr1) →
  agent_outcome sv (FastapiRagAgent.agent sv) req tr = (inr result, tr2) →
  fst (Main.app sv (POST_ask req) tr) = fst (FastapiRagAgent.app sv (POST_ask req) tr)
  ↔ truthy (final_output result) = true.
Proof.
  intros Hblank Hmain Hfast.
  rewrite main_ask_agent_run, fastapi_ask_agent_run, Hblank, Hmain, Hfast.
  unfold py_or, ok. simpl. split.
  - intros Heq. destruct (truthy (final_output result)) eqn:Ht; [done|].
    apply (f_equal (λ r, match body r with
                         | JSON d => d !! lit "answer"
                         | PlainText _ => None
                         end)) in Heq.
    cbn beta iota delta [body] in Heq.
    rewrite !lookup_singleton_eq in Heq. injection Heq as Heq.
    by rewrite <- Heq in Ht.
  - by intros ->.
Qed.

Lemma X10_services_differ_by_the_fallback_witness :
  fst (Main.app (answering (PStr (lit "ROS 2 is a middleware."))) (POST_ask question_request) [])
  = fst (FastapiRagAgent.app (answering (PStr (lit "ROS 2 is a middleware.")))
           (POST_ask question_request) []).
Proof.
  apply (X10_services_differ_by_the_fallback
           (answering (PStr (lit "ROS 2 is a middleware."))) question_request []
           [EvRunSync (lit "Physical AI Tutor") question]
           [EvRunSync (lit "Physical AI Tutor") question]
           {| final_output := PStr (lit "ROS 2 is a middleware.") |});
    vm_compute; reflexivity.
Defined.

(** ** Start-up *)

Lemma absent_or_empty_configured (environ : gmap pystr pystr) (key : pystr) :
  absent_or_empty environ key ↔ configured environ key = false.
Proof. symmetry. apply configured_false. Qed.

(** X11.  When the check of the environment of [main.py] refuses it, the
    exception is a [RuntimeError] whose message names exactly the required
    variables that are absent or empty, in the order GEMINI_API_KEY,
    COHERE_API_KEY, QDRANT_URL, QDRANT_API_KEY, separated by [", "]; and it
    is with this exception that executing the module fails, whatever the
    client libraries. *)
Theorem X11_main_reports_missing_variables
    (environ : gmap pystr pystr) (e : exn) :
  Main.module_init environ = inl e →
  e = PyException (lit "RuntimeError")
        (lit "Missing required environment variables: "
         ++ join (lit ", ") (filter (absent_or_empty environ) required_variables))
  ∧ filter (absent_or_empty environ) required_variables ≠ []
  ∧ ∀ lib, Main.load lib environ = inl e.
Proof.
  intros Hinit.
  assert (Hload : ∀ lib, Main.load lib environ = inl e)
    by (intros lib; unfold Main.load; by rewrite Hinit).
  revert Hinit. rewrite main_module_init_run.
  rewrite (list_filter_iff (absent_or_empty environ)
             (λ key, configured environ key = false))
    by (intros key; apply absent_or_empty_configured).
  destruct (forallb (configured environ) required_variables) eqn:Hall; [done|].
  intros [= <-]. split_and!; [done| |done]. intros Hnil.
  apply not_true_iff_false in Hall. apply Hall, forallb_forall.
  intros key Hkey%list_elem_of_In. apply not_false_iff_true. intros Hfalse.
  assert (key ∈ filter (λ key, configured environ key = false) required_variables)
    as Hin by (by apply list_elem_of_filter).
  rewrite Hnil in Hin. by apply elem_of_nil in Hin.
Qed.

Lemma X11_main_reports_missing_variables_witness :
  PyException (lit "RuntimeError")
    (lit "Missing required environment variables: QDRANT_URL, QDRANT_API_KEY")
  = PyException (lit "RuntimeError")
      (lit "Missing required environment variables: "
       ++ join (lit ", ")
            (filter (absent_or_empty partial_environment) required_variables)).
Proof.
  apply (proj1 (X11_main_reports_missing_variables partial_environment _
                  partial_environment_main)).
Defined.

(** X12.  The three scripts that read the environment accept the same
    environments and bind the same four values; on a refusal [rag_agents.py]
    and [fastapi_rag_agent.py] raise a [ValueError] whose message does not
    name the variable, and [rag_agents.py], once executed, defines no
    application. *)
Theorem X12_startup_checks_agree (environ : gmap pystr pystr) :
  (∀ g, Main.module_init environ = inr g ↔ RagAgents.module_init environ = inr g)
  ∧ (∀ g, RagAgents.module_init environ = inr g
          ↔ FastapiRagAgent.module_init environ = inr g)
  ∧ (∀ e, RagAgents.module_init environ = inl e →
          e = PyException (lit "ValueError")
                (lit "Missing required environment variables")
          ∧ FastapiRagAgent.module_init environ = inl e)
  ∧ (∀ lib m, RagAgents.load lib environ = inr m →
              application m = None ∧ globals m = read_environment environ).
Proof.
  unfold RagAgents.load, after.
  rewrite rag_agents_module_init_run, main_module_init_run, fastapi_module_init_run.
  destruct (forallb (configured environ) required_variables); split_and!;
    try done; try (intros; by simplify_eq).
  intros lib m.
  destruct (AsyncOpenAI lib _ _); [done|].
  destruct (cohere_Client lib _); [done|].
  destruct (QdrantClient lib _ _); [done|].
  by intros [= <-].
Qed.

Lemma X12_startup_checks_agree_witness :
  RagAgents.module_init full_environment = inr (read_environment full_environment).
Proof.
  apply (proj1 (X12_startup_checks_agree full_environment)).
  vm_compute. reflexivity.
Defined.

(** X13.  Start-up reads the four required variables and nothing else: two
    environments that agree on them are accepted or refused alike, with the
    same values bound or the same exception raised. *)
Theorem X13_startup_reads_only_required (environ1 environ2 : gmap pystr pystr) :
  (∀ key, key ∈ required_variables → environ1 !! key = environ2 !! key) →
  Main.module_init environ1 = Main.module_init environ2
  ∧ FastapiRagAgent.module_init environ1 = FastapiRagAgent.module_init environ2
  ∧ RagAgents.module_init environ1 = RagAgents.module_init environ2.
Proof.
  intros Hsame.
  assert (Hread : read_environment environ1 = read_environment environ2).
  { unfold read_environment, os_getenv.
    rewrite !Hsame by (unfold required_variables; set_solver). done. }
  unfold Main.module_init, FastapiRagAgent.module_init, RagAgents.module_init.
  by rewrite Hread.
Qed.

Lemma X13_startup_reads_only_required_witness :
  Main.module_init full_environment = Main.module_init bare_environment.
Proof.
  apply (X13_startup_reads_only_required full_environment bare_environment).
  intros key Hkey. unfold required_variables in Hkey.
  event_cases; vm_compute; reflexivity.
Defined.
